(** * Water-quality dashboard: the feed handler, the one-minute history
      and the safety classifications of [src/App.tsx]

    The component keeps five pieces of React state ([tds], [temperature],
    [lastUpdated], [online], [history]) and updates them from the two
    callbacks it registers with [onValue].  This development embeds those
    callbacks and the two [useMemo] classifications as functions on an
    explicit state record and proves the behaviour the specification
    attributes to them.

    JavaScript numbers are IEEE 754 binary64 values.  They are modelled by
    the [spec_float] type of the Standard Library at precision 53 and
    maximal exponent 1024, so that comparisons, subtraction, [NaN] and the
    infinities behave as they do in the engine. *)

From Stdlib Require Import ZArith List Bool Ascii String Lia.
From Stdlib Require Import SpecFloat.
Import ListNotations.

Local Open Scope Z_scope.

(** ** JavaScript numbers *)

Module JS.

Definition prec : Z := 53.
Definition emax : Z := 1024.

Definition number : Type := spec_float.

Definition NaN : number := S754_nan.
Definition Infinity : number := S754_infinity false.

(** The number nearest to the integer [z] (round to nearest, ties to even). *)
Definition of_Z (z : Z) : number := binary_normalize prec emax z 0 false.

(** The number nearest to [m * 10 ^ e] for [0 < m], with sign [s].  A
    non-negative exponent gives an integer, which is rounded directly; a
    negative one gives the quotient [m / 10 ^ (- e)], which is rounded from
    its integer quotient and the location of its remainder, as the division
    of the Standard Library does. *)
Definition of_decimal (s : bool) (m : positive) (e : Z) : number :=
  match e with
  | Zneg k =>
      let '(q, e', l) :=
        SFdiv_core_binary prec emax (Zpos m) 0 (Zpos (Pos.pow 10 k)) 0 in
      binary_round_aux prec emax s q e' l
  | _ => binary_round prec emax s (m * Z.to_pos (10 ^ e))%positive 0
  end.

Definition sub (x y : number) : number := SFsub prec emax x y.
Definition leb (x y : number) : bool := SFleb x y.
Definition ltb (x y : number) : bool := SFltb x y.
(** [x >= y] is the mirrored comparison; like the others it is false as
    soon as one side is [NaN]. *)
Definition geb (x y : number) : bool := SFleb y x.
Definition eqb (x y : number) : bool := SFeqb x y.

Definition isFinite (x : number) : bool :=
  match x with
  | S754_zero _ | S754_finite _ _ _ => true
  | S754_infinity _ | S754_nan => false
  end.

End JS.

Declare Scope number_scope.
Delimit Scope number_scope with num.
Bind Scope number_scope with JS.number.
Infix "-" := JS.sub : number_scope.
Infix "<=?" := JS.leb : number_scope.
Infix "<?" := JS.ltb : number_scope.
Infix ">=?" := JS.geb (at level 70) : number_scope.

(** ** [Number(string)]: the StringToNumber conversion

    Strings are sequences of code units below 256.  The conversion follows
    the StringNumericLiteral grammar of ECMAScript: white space is trimmed
    on both sides, the empty string is [+0], a literal is a signed decimal
    literal (with optional fraction and exponent), [Infinity] with an
    optional sign, or an unsigned binary, octal or hexadecimal integer;
    every other string is [NaN]. *)

Module StringToNumber.

Import JS.

Definition isStrWhiteSpaceChar (c : ascii) : bool :=
  match N_of_ascii c with
  | 9 | 10 | 11 | 12 | 13 | 32 | 160 => true
  | _ => false
  end%N.

Fixpoint trimStart (l : list ascii) : list ascii :=
  match l with
  | c :: r => if isStrWhiteSpaceChar c then trimStart r else l
  | [] => []
  end.

Definition trim (l : list ascii) : list ascii :=
  rev (trimStart (rev (trimStart l))).

(** The value of [c] as a digit of the given radix, if it is one. *)
Definition digit (radix : Z) (c : ascii) : option Z :=
  let n := Z.of_N (N_of_ascii c) in
  let v :=
    if (48 <=? n) && (n <=? 57) then Some (n - 48)
    else if (97 <=? n) && (n <=? 102) then Some (n - 87)
    else if (65 <=? n) && (n <=? 70) then Some (n - 55)
    else None in
  match v with
  | Some d => if d <? radix then Some d else None
  | None => None
  end.

(** The longest prefix of digits of [l]: its value on top of [acc], the
    number of digits read on top of [cnt], and the rest of [l]. *)
Fixpoint digits (radix : Z) (l : list ascii) (acc cnt : Z)
  : Z * Z * list ascii :=
  match l with
  | c :: r =>
      match digit radix c with
      | Some d => digits radix r (acc * radix + d) (cnt + 1)
      | None => (acc, cnt, l)
      end
  | [] => (acc, cnt, [])
  end.

Definition NonDecimalIntegerLiteral (l : list ascii) : option number :=
  match l with
  | "0"%char :: k :: r =>
      let radix :=
        match k with
        | "b"%char | "B"%char => Some 2
        | "o"%char | "O"%char => Some 8
        | "x"%char | "X"%char => Some 16
        | _ => None
        end in
      match radix with
      | Some b =>
          match digits b r 0 0 with
          | (v, cnt, []) => if 0 <? cnt then Some (of_Z v) else None
          | _ => None
          end
      | None => None
      end
  | _ => None
  end.

(** A sign, if there is one ([true] for minus), and the rest. *)
Definition sign (l : list ascii) : bool * list ascii :=
  match l with
  | "+"%char :: r => (false, r)
  | "-"%char :: r => (true, r)
  | _ => (false, l)
  end.

(** [SignedInteger] to the end of the string. *)
Definition SignedInteger (l : list ascii) : option Z :=
  let '(s, r) := sign l in
  match digits 10 r 0 0 with
  | (v, cnt, []) => if 0 <? cnt then Some (if s then - v else v) else None
  | _ => None
  end.

(** [StrUnsignedDecimalLiteral] other than [Infinity]: the digits of the
    integer and fraction parts as one integer, how many digits were read,
    and the decimal exponent to apply to that integer. *)
Definition DecimalLiteral (l : list ascii) : option (Z * Z * Z) :=
  let '(ip, ic, r1) := digits 10 l 0 0 in
  let '(m, fc, r2) :=
    match r1 with
    | "."%char :: r => digits 10 r ip 0
    | _ => (ip, 0, r1)
    end in
  if ic + fc =? 0 then None
  else
    match r2 with
    | [] => Some (m, ic + fc, - fc)
    | c :: r3 =>
        match c with
        | "e"%char | "E"%char =>
            match SignedInteger r3 with
            | Some x => Some (m, ic + fc, x - fc)
            | None => None
            end
        | _ => None
        end
    end.

(** The number denoted by [m * 10 ^ e], where [m] has at most [nd] decimal
    digits.  Past the range of binary64 the result is decided without
    computing the power. *)
Definition round_decimal (s : bool) (m nd e : Z) : number :=
  match m with
  | Zpos p =>
      if 400 <? e then S754_infinity s
      else if e + nd <? -400 then S754_zero s
      else of_decimal s p e
  | _ => S754_zero s
  end.

Definition StrDecimalLiteral (l : list ascii) : number :=
  let '(s, r) := sign l in
  if list_eq_dec ascii_dec r (list_ascii_of_string "Infinity")
  then S754_infinity s
  else
    match DecimalLiteral r with
    | Some (m, nd, e) => round_decimal s m nd e
    | None => NaN
    end.

Definition StringToNumber (str : string) : number :=
  match trim (list_ascii_of_string str) with
  | [] => S754_zero false
  | l =>
      match NonDecimalIntegerLiteral l with
      | Some x => x
      | None => StrDecimalLiteral l
      end
  end.

End StringToNumber.

(** ** [Date]

    A [Date] object holds a time value: an integral number of milliseconds
    since the epoch, or [NaN] for an invalid date.  [new Date(string)]
    parses the ECMAScript date-time string format
    [YYYY-MM-DDTHH:mm:ss.sssZ] and its shorter forms.  A date-time without
    offset is local time, and a string outside the format is left to the
    engine: both are parameters of the host. *)

Module DateModel.

Import JS StringToNumber.

Record Date : Type := mkDate { getTime : number }.

Definition msPerDay : Z := 86400000.

Definition DaysFromYear (y : Z) : Z :=
  365 * (y - 1970) + (y - 1969) / 4 - (y - 1901) / 100 + (y - 1601) / 400.

Definition InLeapYear (y : Z) : bool :=
  ((y mod 4 =? 0) && negb (y mod 100 =? 0)) || (y mod 400 =? 0).

(** Days from the start of year [y] to the start of its month [m] (1-12). *)
Definition DaysBeforeMonth (y m : Z) : Z :=
  let leap := if InLeapYear y then 1 else 0 in
  match m with
  | 1 => 0 | 2 => 31 | 3 => 59 + leap | 4 => 90 + leap
  | 5 => 120 + leap | 6 => 151 + leap | 7 => 181 + leap | 8 => 212 + leap
  | 9 => 243 + leap | 10 => 273 + leap | 11 => 304 + leap | _ => 334 + leap
  end.

Definition MakeDay (y m d : Z) : Z :=
  DaysFromYear y + DaysBeforeMonth y m + (d - 1).

Definition MakeTime (h mi sec ms : Z) : Z :=
  ((h * 60 + mi) * 60 + sec) * 1000 + ms.

Definition TimeClip (t : Z) : number :=
  if 8640000000000000 <? Z.abs t then NaN else of_Z t.

(** Exactly [n] decimal digits. *)
Fixpoint fixed (n : nat) (l : list ascii) (acc : Z)
  : option (Z * list ascii) :=
  match n with
  | O => Some (acc, l)
  | S k =>
      match l with
      | c :: r =>
          match digit 10 c with
          | Some d => fixed k r (acc * 10 + d)
          | None => None
          end
      | [] => None
      end
  end.

Definition in_range (lo hi x : Z) : bool := (lo <=? x) && (x <=? hi).

Definition year (l : list ascii) : option (Z * list ascii) :=
  match l with
  | "+"%char :: r => fixed 6 r 0
  | "-"%char :: r =>
      match fixed 6 r 0 with
      | Some (y, r') => if y =? 0 then None else Some (- y, r')
      | None => None
      end
  | _ => fixed 4 l 0
  end.

(** A two-digit field after the separator [sep], within [lo..hi]; [None]
    in the outer option when the separator is there but the field is
    malformed, [Some None] when the separator is not there. *)
Definition field (sep : ascii) (lo hi : Z) (l : list ascii)
  : option (option (Z * list ascii)) :=
  match l with
  | c :: r =>
      if Ascii.eqb c sep then
        match fixed 2 r 0 with
        | Some (v, r') => if in_range lo hi v then Some (Some (v, r')) else None
        | None => None
        end
      else Some None
  | [] => Some None
  end.

(** Milliseconds from a fraction [.sss]; digits past the third are cut. *)
Definition fraction (l : list ascii) : option (Z * list ascii) :=
  match l with
  | "."%char :: r =>
      match digits 10 r 0 0 with
      | (v, cnt, r') =>
          if cnt =? 0 then None
          else if cnt <=? 3 then Some (v * 10 ^ (3 - cnt), r')
          else Some (v / 10 ^ (cnt - 3), r')
      end
  | _ => Some (0, l)
  end.

(** The offset of the zone in milliseconds: [Z], [+HH:mm], [-HH:mm], or
    local time when there is none. *)
Definition offset (tza : Z) (l : list ascii) : option Z :=
  match l with
  | [] => Some tza
  | ["Z"%char] => Some 0
  | c :: r =>
      let sgn :=
        match c with
        | "+"%char => Some 1
        | "-"%char => Some (-1)
        | _ => None
        end in
      match sgn, fixed 2 r 0 with
      | Some sg, Some (h, r1) =>
          match field ":" 0 59 r1 with
          | Some (Some (mi, [])) =>
              if in_range 0 23 h then Some (sg * MakeTime h mi 0 0) else None
          | _ => None
          end
      | _, _ => None
      end
  end.

(** [THH:mm], [THH:mm:ss] or [THH:mm:ss.sss] and the zone: the time within
    the day, already moved to UTC. *)
Definition time (tza : Z) (l : list ascii) : option Z :=
  match fixed 2 l 0 with
  | Some (h, r1) =>
      match field ":" 0 59 r1 with
      | Some (Some (mi, r2)) =>
          match field ":" 0 59 r2 with
          | Some sec =>
              let '(s, r3) :=
                match sec with Some (s, r3) => (s, r3) | None => (0, r2) end in
              let frac :=
                match sec with Some _ => fraction r3 | None => Some (0, r3) end in
              match frac with
              | Some (ms, r4) =>
                  if in_range 0 23 h || ((h =? 24) && (mi + s + ms =? 0))
                  then
                    match offset tza r4 with
                    | Some off => Some (MakeTime h mi s ms - off)
                    | None => None
                    end
                  else None
              | None => None
              end
          | None => None
          end
      | _ => None
      end
  | None => None
  end.

(** Milliseconds since the epoch denoted by a string of the format.  The
    month is within 01-12 and the day within 01-31; a day past the end of
    its month carries over into the next one. *)
Definition parse_format (tza : Z) (l : list ascii) : option Z :=
  match year l with
  | Some (y, r1) =>
      match field "-" 1 12 r1 with
      | Some mo =>
          let '(m, r2) :=
            match mo with Some (m, r2) => (m, r2) | None => (1, r1) end in
          let day :=
            match mo with Some _ => field "-" 1 31 r2 | None => Some None end in
          match day with
          | Some dd =>
              let '(d, r3) :=
                match dd with Some (d, r3) => (d, r3) | None => (1, r2) end in
              match r3 with
              | [] => Some (MakeDay y m d * msPerDay)
              | "T"%char :: r4 =>
                  match time tza r4 with
                  | Some t => Some (MakeDay y m d * msPerDay + t)
                  | None => None
                  end
              | _ => None
              end
          | None => None
          end
      | None => None
      end
  | None => None
  end.

(** What [Date.parse] takes from the host: the offset of the local time
    zone from UTC in milliseconds, and the date formats the engine accepts
    beyond the standard one ([None] for a string it does not recognise). *)
Record Host : Type := mkHost {
  LocalTZA : Z;
  legacyParse : string -> option Z
}.

(** [Date.parse]: the standard format first, then the formats of the
    engine; a string that neither recognises gives [NaN]. *)
Definition parse (host : Host) (str : string) : number :=
  match parse_format (LocalTZA host) (list_ascii_of_string str) with
  | Some t => TimeClip t
  | None =>
      match legacyParse host str with
      | Some t => TimeClip t
      | None => NaN
      end
  end.

(** [new Date(str)] *)
Definition of_string (host : Host) (str : string) : Date :=
  mkDate (parse host str).

End DateModel.

(** ** The component state and the feed callbacks *)

Import JS DateModel.

Local Open Scope string_scope.
Local Open Scope list_scope.

(** [Number(v)] for a value of type [number | string]. *)
Inductive NumOrStr : Type :=
| Num (x : number)
| Str (s : string).

Definition Number (v : NumOrStr) : number :=
  match v with
  | Num x => x
  | Str s => StringToNumber.StringToNumber s
  end.

(** [a ?? b] on an optional property: [None] is the absent property. *)
Definition nullish {A : Type} (a : option A) (b : A) : A :=
  match a with
  | Some v => v
  | None => b
  end.

Infix "??" := nullish (at level 75, right associativity).

(** The object [snapshot.val()] is cast to. *)
Module Raw.
Record Value : Type := mk {
  tds : option NumOrStr;
  temperature : option NumOrStr;
  timestamp : option string
}.
End Raw.

Module Point.
Record HistoryPoint : Type := mk {
  time : Date;
  tds : number;
  temperature : number
}.
End Point.
Abbreviation HistoryPoint := Point.HistoryPoint.

Definition TDS_SAFE_MAX : number := of_Z 500.
Definition TEMP_SAFE_MIN : number := of_Z 15.
Definition TEMP_SAFE_MAX : number := of_Z 30.

(** The five [useState] cells of [App]. *)
Record State : Type := mkState {
  tds : option number;
  temperature : option number;
  lastUpdated : option Date;
  online : bool;
  history : list HistoryPoint
}.

(** The initial values given to [useState]. *)
Definition initial : State :=
  {| tds := None; temperature := None; lastUpdated := None;
     online := false; history := [] |}.

Definition setTds (v : option number) (st : State) : State :=
  {| tds := v; temperature := temperature st; lastUpdated := lastUpdated st;
     online := online st; history := history st |}.

Definition setTemperature (v : option number) (st : State) : State :=
  {| tds := tds st; temperature := v; lastUpdated := lastUpdated st;
     online := online st; history := history st |}.

Definition setLastUpdated (v : option Date) (st : State) : State :=
  {| tds := tds st; temperature := temperature st; lastUpdated := v;
     online := online st; history := history st |}.

Definition setOnline (v : bool) (st : State) : State :=
  {| tds := tds st; temperature := temperature st;
     lastUpdated := lastUpdated st; online := v; history := history st |}.

(** [setHistory] is called with an updater, which receives the previous
    history. *)
Definition setHistory (f : list HistoryPoint -> list HistoryPoint)
  (st : State) : State :=
  {| tds := tds st; temperature := temperature st;
     lastUpdated := lastUpdated st; online := online st;
     history := f (history st) |}.

(** The two readings of the clock in one run of the success callback:
    [new Date()] when the record has no timestamp, and [Date.now()] inside
    the history updater. *)
Record Clock : Type := mkClock {
  newDate : number;
  DateNow : number
}.

(** Truthiness of the optional string [value.timestamp]: absent and the
    empty string are falsy. *)
Definition truthy (s : option string) : option string :=
  match s with
  | Some "" => None
  | _ => s
  end.

Section Host.

(** The browser the page runs in. *)
Variable host : Host.

Definition tdsVal (value : Raw.Value) : number :=
  Number (Raw.tds value ?? Num (of_Z 0)).

Definition tempVal (value : Raw.Value) : number :=
  Number (Raw.temperature value ?? Num (of_Z 0)).

Definition ts (clk : Clock) (value : Raw.Value) : Date :=
  match truthy (Raw.timestamp value) with
  | Some s => of_string host s
  | None => mkDate (newDate clk)
  end.

(** The point the success callback appends. *)
Definition newPoint (clk : Clock) (value : Raw.Value) : HistoryPoint :=
  {| Point.time := ts clk value;
     Point.tds := tdsVal value;
     Point.temperature := tempVal value |}.

(** The filter of the history updater. *)
Definition keep (now : number) (point : HistoryPoint) : bool :=
  (now - getTime (Point.time point) <=? of_Z 60000)%num.

(** The updater passed to [setHistory]. *)
Definition updateHistory (clk : Clock) (p : HistoryPoint)
  (prev : list HistoryPoint) : list HistoryPoint :=
  let now := DateNow clk in
  filter (keep now) (prev ++ [p]).

(** The success callback of [onValue]; [None] is a [null] snapshot value. *)
Definition onSnapshot (clk : Clock) (value : option Raw.Value)
  (st : State) : State :=
  match value with
  | None => setOnline false st
  | Some value =>
      let st := setTds (Some (tdsVal value)) st in
      let st := setTemperature (Some (tempVal value)) st in
      let st := setLastUpdated (Some (ts clk value)) st in
      let st := setOnline true st in
      setHistory (updateHistory clk (newPoint clk value)) st
  end.

(** The error callback of [onValue] ([console.error] leaves the state
    alone). *)
Definition onError (st : State) : State := setOnline false st.

Inductive FeedEvent : Type :=
| Snapshot (clk : Clock) (value : option Raw.Value)
| Failure.

Definition step (st : State) (ev : FeedEvent) : State :=
  match ev with
  | Snapshot clk value => onSnapshot clk value st
  | Failure => onError st
  end.

(** The state after a sequence of feed events, delivered one at a time. *)
Definition run (st : State) (evs : list FeedEvent) : State :=
  fold_left step evs st.

End Host.

(** ** Derived view state *)

Record Status : Type := mkStatus {
  label : string;
  color : string;
  text : string
}.

Definition tdsStatus (tds : option number) : Status :=
  match tds with
  | None =>
      {| label := "—"; color := "bg-gray-300"; text := "text-gray-700" |}
  | Some tds =>
      if (tds <=? TDS_SAFE_MAX)%num
      then {| label := "Safe"; color := "bg-green-100";
              text := "text-green-700" |}
      else {| label := "High"; color := "bg-red-100"; text := "text-red-700" |}
  end.

Definition tempStatus (temperature : option number) : Status :=
  match temperature with
  | None =>
      {| label := "—"; color := "bg-gray-300"; text := "text-gray-700" |}
  | Some temperature =>
      if (temperature >=? TEMP_SAFE_MIN)%num
         && (temperature <=? TEMP_SAFE_MAX)%num
      then {| label := "Safe"; color := "bg-green-100";
              text := "text-green-700" |}
      else {| label := "Out of range"; color := "bg-amber-100";
              text := "text-amber-700" |}
  end.

(** What a value card shows: the placeholder before the first reading,
    the value (printed with one decimal) after it. *)
Inductive Shown : Type :=
| Placeholder (s : string)
| Fixed1 (x : number).

Definition shown (v : option number) : Shown :=
  match v with
  | Some x => Fixed1 x
  | None => Placeholder "--"
  end.

(** ** Specification vocabulary *)

(** [Subseq l1 l2]: [l1] is [l2] with some elements removed, the others in
    their order. *)
Inductive Subseq {A : Type} : list A -> list A -> Prop :=
| Subseq_nil : Subseq [] []
| Subseq_skip (x : A) (l1 l2 : list A) : Subseq l1 l2 -> Subseq l1 (x :: l2)
| Subseq_cons (x : A) (l1 l2 : list A) :
    Subseq l1 l2 -> Subseq (x :: l1) (x :: l2).

(** The points the success callback appends over a sequence of events, in
    the order of the events. *)
Fixpoint appended (host : Host) (evs : list FeedEvent)
  : list HistoryPoint :=
  match evs with
  | Snapshot clk (Some value) :: r =>
      newPoint host clk value :: appended host r
  | _ :: r => appended host r
  | [] => []
  end.

(** The decimal literals the specification quotes. *)
Definition n500_1 : number := of_decimal false 5001 (-1).
Definition n14_999 : number := of_decimal false 14999 (-3).
Definition n30_001 : number := of_decimal false 30001 (-3).

(** ** Concrete feed records and states

    [T0] is 2024-01-01T00:00:00Z. *)

Module Scenario.

(** A host in UTC that accepts the standard date format only. *)
Definition utc : Host := mkHost 0 (fun _ => None).

Definition T0 : Z := 1704067200000.

(** A clock whose two readings are both [T0 + ms]. *)
Definition at_ms (ms : Z) : Clock :=
  mkClock (of_Z (T0 + ms)) (of_Z (T0 + ms)).

Definition reading (tds temperature : Z) (timestamp : string) : Raw.Value :=
  Raw.mk (Some (Num (of_Z tds))) (Some (Num (of_Z temperature)))
    (Some timestamp).

Definition v0 : Raw.Value := reading 300 22 "2024-01-01T00:00:00Z".
Definition v30 : Raw.Value := reading 310 23 "2024-01-01T00:00:30Z".
Definition v60 : Raw.Value := reading 320 24 "2024-01-01T00:01:00Z".
Definition v61 : Raw.Value := reading 650 35 "2024-01-01T00:01:01Z".

(** The points of [v0] and [v30], as the callback builds them. *)
Definition p0 : HistoryPoint := newPoint utc (at_ms 0) v0.
Definition p30 : HistoryPoint := newPoint utc (at_ms 30000) v30.

(** The state after the readings at [T0] and [T0 + 30 s]. *)
Definition two_readings : State :=
  run utc initial
    [Snapshot (at_ms 0) (Some v0); Snapshot (at_ms 30000) (Some v30)].

(** [{tds: "abc", temperature: undefined}] *)
Definition malformed : Raw.Value := Raw.mk (Some (Str "abc")) None None.

(** A record whose timestamp is present but is not a date. *)
Definition bad_timestamp : Raw.Value :=
  Raw.mk (Some (Num (of_Z 300))) (Some (Num (of_Z 22))) (Some "pending").

End Scenario.

(** ** The rest of the view

    What the component renders from its state besides the two status
    badges: the time of the last update, the chart data, the trend lines
    and the progress bars of the two cards, the chart panel and the
    connectivity labels. *)

Module JSMath.

Definition div (x y : number) : number := SFdiv JS.prec JS.emax x y.
Definition mul (x y : number) : number := SFmul JS.prec JS.emax x y.

(** [Math.min(x, y)]: [NaN] as soon as one argument is, [-0] below [+0]. *)
Definition min (x y : number) : number :=
  match x, y with
  | S754_nan, _ | _, S754_nan => NaN
  | S754_zero sx, S754_zero sy => S754_zero (sx || sy)
  | _, _ => if (y <? x)%num then y else x
  end.

End JSMath.

Infix "/" := JSMath.div : number_scope.
Infix "*" := JSMath.mul : number_scope.

Module Chart.
Record Dataset : Type := mkDataset {
  label : string;
  data : list number;
  borderColor : string;
  backgroundColor : string;
  tension : number;
  pointRadius : number
}.
Record Data : Type := mkData {
  labels : list string;
  datasets : list Dataset
}.
End Chart.

(** What the chart panel holds: the placeholder text or the line chart. *)
Inductive Panel : Type :=
| Waiting (s : string)
| Line (data : Chart.Data).

(** A CSS width: a literal, or the template [`${x}%`] of a number. *)
Inductive Width : Type :=
| Css (s : string)
| Percent (x : number).

Section View.

(** [Date.prototype.toLocaleTimeString], which depends on the locale. *)
Variable toLocaleTimeString : Date -> string.

Definition formattedTime (lastUpdated : option Date) : string :=
  match lastUpdated with
  | None => "—"
  | Some d => toLocaleTimeString d
  end.

Definition chartData (history : list HistoryPoint) : Chart.Data :=
  let labels := map (fun p => toLocaleTimeString (Point.time p)) history in
  {| Chart.labels := labels;
     Chart.datasets :=
       [ {| Chart.label := "TDS (mg/L)";
            Chart.data := map (fun p => Point.tds p) history;
            Chart.borderColor := "#3b82f6";
            Chart.backgroundColor := "rgba(59,130,246,0.12)";
            Chart.tension := of_decimal false 35 (-2);
            Chart.pointRadius := of_Z 2 |};
         {| Chart.label := "Temperature (°C)";
            Chart.data := map (fun p => Point.temperature p) history;
            Chart.borderColor := "#22c55e";
            Chart.backgroundColor := "rgba(34,197,94,0.12)";
            Chart.tension := of_decimal false 35 (-2);
            Chart.pointRadius := of_Z 2 |} ] |}.

(** The chart panel: the chart needs two points. *)
Definition chartPanel (st : State) : Panel :=
  if Nat.ltb (List.length (history st)) 2
  then Waiting "Waiting for enough data points…"
  else Line (chartData (history st)).

End View.

(** [v != null] *)
Definition notNull {A : Type} (v : option A) : bool :=
  match v with
  | Some _ => true
  | None => false
  end.

(** The trend line of the TDS card. *)
Definition tdsTrend (st : State) : string :=
  if Nat.ltb 1 (List.length (history st)) && notNull (tds st)
  then
    if String.eqb (label (tdsStatus (tds st))) "Safe"
    then "Stable"
    else "Needs attention"
  else "Waiting for data".

(** The trend line of the temperature card. *)
Definition tempTrend (st : State) : string :=
  if Nat.ltb 1 (List.length (history st)) && notNull (temperature st)
  then label (tempStatus (temperature st))
  else "Waiting for data".

(** The colour class of the TDS progress bar. *)
Definition tdsBarColor (tds : option number) : string :=
  match tds with
  | Some tds =>
      if (tds <=? TDS_SAFE_MAX)%num then "bg-emerald-400" else "bg-red-400"
  | None => "bg-red-400"
  end.

Definition tdsBarWidth (tds : option number) : Width :=
  match tds with
  | None => Css "10%"
  | Some tds =>
      Percent (JSMath.min ((tds / TDS_SAFE_MAX) * of_Z 100) (of_Z 100))%num
  end.

Definition tempBarWidth (temperature : option number) : Width :=
  match temperature with
  | None => Css "10%"
  | Some temperature =>
      Percent
        (JSMath.min
           (((temperature - TEMP_SAFE_MIN) / (TEMP_SAFE_MAX - TEMP_SAFE_MIN))
            * of_Z 100)
           (of_Z 100))%num
  end.

(** The connectivity labels of the header and of the system card. *)
Definition onlineLabel (online : bool) : string :=
  if online then "Online" else "Offline".

Definition systemStatus (online : bool) : string :=
  if online then "Operational" else "Offline".

(** An offline event: a [null] snapshot value or a subscription error. *)
Definition offline (ev : FeedEvent) : bool :=
  match ev with
  | Snapshot _ (Some _) => false
  | _ => true
  end.

(** The clock and the record of the latest successful snapshot of a
    sequence of events, if there is one. *)
Definition lastReading (evs : list FeedEvent) : option (Clock * Raw.Value) :=
  fold_left
    (fun acc ev =>
       match ev with
       | Snapshot clk (Some value) => Some (clk, value)
       | _ => acc
       end)
    evs None.

(** ** Comparisons of numbers *)

Lemma SFcompare_antisym (x y : number) :
  SFcompare y x = option_map CompOpp (SFcompare x y).
Proof.
  destruct x as [sx | sx | | sx mx ex], y as [sy | sy | | sy my ey];
    simpl; try reflexivity;
    try (destruct sx; reflexivity); try (destruct sy; reflexivity);
    try (destruct sx, sy; reflexivity).
  destruct sx, sy; simpl; try reflexivity;
    rewrite (Z.compare_antisym ex ey);
    destruct (ex ?= ey)%Z eqn:E; simpl; try reflexivity;
    rewrite (Pos.compare_cont_antisym mx my Eq); simpl;
    try rewrite CompOpp_involutive; reflexivity.
Qed.

Lemma ltb_not_leb (x y : number) :
  (x <? y)%num = true -> (y <=? x)%num = false.
Proof.
  unfold JS.ltb, JS.leb, SFltb, SFleb.
  rewrite (SFcompare_antisym x y).
  destruct (SFcompare x y) as [[| |]|]; simpl; congruence.
Qed.

Lemma eqb_leb (x y : number) : JS.eqb x y = true -> (x <=? y)%num = true.
Proof.
  unfold JS.eqb, JS.leb, SFeqb, SFleb.
  destruct (SFcompare x y) as [[| |]|]; congruence.
Qed.

(** ** The conversions at work *)

Example StringToNumber_numeric :
  map StringToNumber.StringToNumber
    ["300"; " 22 "; "500.1"; "-0"; "1e3"; "0x1F"; ""; "Infinity"]
  = [of_Z 300; of_Z 22; n500_1; S754_zero true; of_Z 1000; of_Z 31;
     of_Z 0; Infinity].
Proof. reflexivity. Qed.

Example StringToNumber_not_numeric :
  map StringToNumber.StringToNumber ["abc"; "12px"; "1 2"; "."; "1e"; "-0x10"]
  = [NaN; NaN; NaN; NaN; NaN; NaN].
Proof. reflexivity. Qed.

Example parse_standard_format :
  map (parse (mkHost 19800000 (fun _ => None)))
    ["2024-01-01T00:00:00Z"; "2024-01-01"; "2024-01-01T05:30:00+05:30";
     "2024-01-01T05:30"; "1970-01-01T00:00:00.001Z"]
  = [of_Z Scenario.T0; of_Z Scenario.T0; of_Z Scenario.T0; of_Z Scenario.T0;
     of_Z 1].
Proof. reflexivity. Qed.

Example parse_unrecognised :
  map (parse Scenario.utc) ["pending"; "2024-13-01T00:00:00Z"; "2024-01-01T"]
  = [NaN; NaN; NaN].
Proof. reflexivity. Qed.

(** ** Subsequences *)

Lemma Subseq_refl {A : Type} (l : list A) : Subseq l l.
Proof. induction l; constructor; assumption. Qed.

Lemma Subseq_nil_l {A : Type} (l : list A) : Subseq [] l.
Proof. induction l; constructor; assumption. Qed.

Lemma Subseq_filter {A : Type} (f : A -> bool) (l : list A) :
  Subseq (filter f l) l.
Proof.
  induction l as [| a l IH]; simpl.
  - constructor.
  - destruct (f a); constructor; exact IH.
Qed.

Lemma Subseq_trans {A : Type} (l1 l2 l3 : list A) :
  Subseq l1 l2 -> Subseq l2 l3 -> Subseq l1 l3.
Proof.
  intros H12 H23. revert l1 H12.
  induction H23 as [| x l2 l3 H IH | x l2 l3 H IH]; intros l1 H12.
  - exact H12.
  - constructor. apply IH. exact H12.
  - inversion H12; subst.
    + apply Subseq_skip. apply IH. assumption.
    + apply Subseq_cons. apply IH. assumption.
Qed.

Lemma Subseq_app {A : Type} (k1 l1 k2 l2 : list A) :
  Subseq k1 l1 -> Subseq k2 l2 -> Subseq (k1 ++ k2) (l1 ++ l2).
Proof.
  intros H1 H2.
  induction H1; simpl.
  - exact H2.
  - apply Subseq_skip. assumption.
  - apply Subseq_cons. assumption.
Qed.

Lemma Subseq_In {A : Type} (l1 l2 : list A) (x : A) :
  Subseq l1 l2 -> In x l1 -> In x l2.
Proof.
  induction 1 as [| y l1 l2 H IH | y l1 l2 H IH]; simpl; intros Hin.
  - exact Hin.
  - right. apply IH. exact Hin.
  - destruct Hin as [-> | Hin]; [left; reflexivity | right; apply IH; exact Hin].
Qed.

(** ** The history updater *)

Lemma updateHistory_split (clk : Clock) (p : HistoryPoint)
  (prev : list HistoryPoint) :
  updateHistory clk p prev
  = filter (keep (DateNow clk)) prev
    ++ (if keep (DateNow clk) p then [p] else []).
Proof.
  unfold updateHistory. rewrite filter_app. simpl.
  destruct (keep (DateNow clk) p); reflexivity.
Qed.

Lemma history_onSnapshot (host : Host) (clk : Clock) (value : Raw.Value)
  (st : State) :
  history (onSnapshot host clk (Some value) st)
  = updateHistory clk (newPoint host clk value) (history st).
Proof. reflexivity. Qed.

(** ** The one-minute window *)

(** C1.  Immediately after the success callback has appended a reading and
    evaluated the history updater at clock [now], the history is the
    previous history followed by the new point, restricted to the points
    whose age [now - time] is at most 60000 ms: a point is in the new
    history exactly when it was a candidate and its age is within the
    bound; a candidate strictly older than 60000 ms is gone, and one whose
    age is exactly 60000 ms stays.  The state before the callback is
    arbitrary, hence also any state reached by a sequence of feed events. *)
Theorem history_is_the_window (host : Host) (clk : Clock) (value : Raw.Value)
  (st : State) :
  let now := DateNow clk in
  let p := newPoint host clk value in
  let st' := onSnapshot host clk (Some value) st in
  history st' = filter (keep now) (history st ++ [p])
  /\ (forall q : HistoryPoint,
        In q (history st') <->
        In q (history st ++ [p])
        /\ (now - getTime (Point.time q) <=? of_Z 60000)%num = true)
  /\ (forall q : HistoryPoint,
        In q (history st ++ [p]) ->
        (of_Z 60000 <? now - getTime (Point.time q))%num = true ->
        ~ In q (history st'))
  /\ (forall q : HistoryPoint,
        In q (history st ++ [p]) ->
        JS.eqb (now - getTime (Point.time q)) (of_Z 60000) = true ->
        In q (history st')).
Proof.
  intros now p st'.
  assert (Hmem : forall q : HistoryPoint,
             In q (history st') <->
             In q (history st ++ [p]) /\ keep now q = true).
  { intros q. unfold st'. rewrite history_onSnapshot.
    unfold updateHistory. apply filter_In. }
  split; [reflexivity |].
  split; [exact Hmem |].
  split.
  - intros q _ Hold Hin.
    apply Hmem in Hin. destruct Hin as [_ Hkeep].
    unfold keep in Hkeep.
    rewrite (ltb_not_leb _ _ Hold) in Hkeep. discriminate.
  - intros q Hcand Hage.
    apply Hmem. split; [exact Hcand |].
    unfold keep. apply eqb_leb. exact Hage.
Qed.

(** The scenario of the specification: with the readings of [T0] and
    [T0 + 30 s] in the history, the reading of [T0 + 61 s] evicts the
    first (age 61000 ms) and keeps the second. *)
Lemma history_is_the_window_witness :
  In Scenario.p0
    (history Scenario.two_readings
     ++ [newPoint Scenario.utc (Scenario.at_ms 61000) Scenario.v61])
  /\ (of_Z 60000 <?
      DateNow (Scenario.at_ms 61000) - getTime (Point.time Scenario.p0))%num
     = true
  /\ ~ In Scenario.p0
       (history
          (onSnapshot Scenario.utc (Scenario.at_ms 61000) (Some Scenario.v61)
             Scenario.two_readings)).
Proof.
  assert (Hcand : In Scenario.p0
            (history Scenario.two_readings
             ++ [newPoint Scenario.utc (Scenario.at_ms 61000) Scenario.v61])).
  { left. reflexivity. }
  assert (Hold : (of_Z 60000 <?
                  DateNow (Scenario.at_ms 61000)
                  - getTime (Point.time Scenario.p0))%num = true).
  { reflexivity. }
  split; [exact Hcand |]. split; [exact Hold |].
  exact (proj1 (proj2 (proj2
           (history_is_the_window Scenario.utc (Scenario.at_ms 61000) Scenario.v61
              Scenario.two_readings)))
           Scenario.p0 Hcand Hold).
Defined.

Example scenario_61s :
  history
    (onSnapshot Scenario.utc (Scenario.at_ms 61000) (Some Scenario.v61)
       Scenario.two_readings)
  = [Scenario.p30; newPoint Scenario.utc (Scenario.at_ms 61000) Scenario.v61].
Proof. reflexivity. Qed.

Example scenario_60s_boundary :
  history
    (onSnapshot Scenario.utc (Scenario.at_ms 60000) (Some Scenario.v60)
       Scenario.two_readings)
  = [Scenario.p0; Scenario.p30;
     newPoint Scenario.utc (Scenario.at_ms 60000) Scenario.v60].
Proof. reflexivity. Qed.

Example scenario_safe_reading :
  let st := onSnapshot Scenario.utc (Scenario.at_ms 0) (Some Scenario.v0)
              initial in
  label (tdsStatus (tds st)) = "Safe"
  /\ label (tempStatus (temperature st)) = "Safe"
  /\ online st = true.
Proof. repeat split. Qed.

Example scenario_unsafe_reading :
  let st := onSnapshot Scenario.utc (Scenario.at_ms 61000)
              (Some Scenario.v61) initial in
  label (tdsStatus (tds st)) = "High"
  /\ label (tempStatus (temperature st)) = "Out of range".
Proof. repeat split. Qed.

(** ** Safety classifications *)

Lemma label_tdsStatus (x : number) :
  label (tdsStatus (Some x))
  = if (x <=? TDS_SAFE_MAX)%num then "Safe" else "High".
Proof. simpl. destruct (x <=? TDS_SAFE_MAX)%num; reflexivity. Qed.

Lemma label_tempStatus (x : number) :
  label (tempStatus (Some x))
  = if (x >=? TEMP_SAFE_MIN)%num && (x <=? TEMP_SAFE_MAX)%num
    then "Safe" else "Out of range".
Proof.
  simpl.
  destruct ((x >=? TEMP_SAFE_MIN)%num && (x <=? TEMP_SAFE_MAX)%num);
    reflexivity.
Qed.

(** C3.  With a reading present, [tdsStatus] is labelled "Safe" exactly
    when [tds <= 500] and "High" exactly when that comparison fails; 500 is
    safe and 500.1 is high; with no reading yet the label is the dash. *)
Theorem tdsStatus_threshold :
  TDS_SAFE_MAX = of_Z 500
  /\ (forall x : number,
        label (tdsStatus (Some x)) = "Safe" <-> (x <=? of_Z 500)%num = true)
  /\ (forall x : number,
        label (tdsStatus (Some x)) = "High" <-> (x <=? of_Z 500)%num = false)
  /\ label (tdsStatus (Some (of_Z 500))) = "Safe"
  /\ label (tdsStatus (Some n500_1)) = "High"
  /\ label (tdsStatus None) = "—".
Proof.
  split; [reflexivity |].
  split.
  { intros x. rewrite label_tdsStatus. fold TDS_SAFE_MAX.
    destruct (x <=? TDS_SAFE_MAX)%num; split; intros H;
      try reflexivity; discriminate H. }
  split.
  { intros x. rewrite label_tdsStatus. fold TDS_SAFE_MAX.
    destruct (x <=? TDS_SAFE_MAX)%num; split; intros H;
      try reflexivity; discriminate H. }
  repeat split; reflexivity.
Qed.

(** C4.  With a reading present, [tempStatus] is labelled "Safe" exactly
    when [15 <= temperature] and [temperature <= 30] both hold, and "Out of
    range" exactly when one of them fails; 15 and 30 are safe, 14.999 and
    30.001 are out of range; with no reading yet the label is the dash. *)
Theorem tempStatus_band :
  TEMP_SAFE_MIN = of_Z 15 /\ TEMP_SAFE_MAX = of_Z 30
  /\ (forall x : number,
        label (tempStatus (Some x)) = "Safe" <->
        (of_Z 15 <=? x)%num = true /\ (x <=? of_Z 30)%num = true)
  /\ (forall x : number,
        label (tempStatus (Some x)) = "Out of range" <->
        ~ ((of_Z 15 <=? x)%num = true /\ (x <=? of_Z 30)%num = true))
  /\ label (tempStatus (Some (of_Z 15))) = "Safe"
  /\ label (tempStatus (Some (of_Z 30))) = "Safe"
  /\ label (tempStatus (Some n14_999)) = "Out of range"
  /\ label (tempStatus (Some n30_001)) = "Out of range"
  /\ label (tempStatus None) = "—".
Proof.
  split; [reflexivity |]. split; [reflexivity |].
  split.
  { intros x. rewrite label_tempStatus.
    unfold JS.geb. fold (JS.leb TEMP_SAFE_MIN x).
    fold TEMP_SAFE_MIN. fold TEMP_SAFE_MAX.
    destruct (TEMP_SAFE_MIN <=? x)%num, (x <=? TEMP_SAFE_MAX)%num; simpl;
      split; intros H; try reflexivity; try discriminate H;
      try (split; reflexivity);
      destruct H as [H1 H2]; discriminate. }
  split.
  { intros x. rewrite label_tempStatus.
    unfold JS.geb. fold (JS.leb TEMP_SAFE_MIN x).
    fold TEMP_SAFE_MIN. fold TEMP_SAFE_MAX.
    destruct (TEMP_SAFE_MIN <=? x)%num, (x <=? TEMP_SAFE_MAX)%num; simpl;
      split; intros H; try reflexivity; try discriminate H;
      try (intros [H1 H2]; discriminate);
      exfalso; apply H; split; reflexivity. }
  repeat split; reflexivity.
Qed.

(** ** Offline events *)

(** C6.  A [null] snapshot value switches [online] to [false] and leaves
    the history, and every other cell, as it was; this holds in every
    state, in particular after a successful reading. *)
Theorem null_payload_goes_offline (host : Host) (clk : Clock) (st : State) :
  let st' := step host st (Snapshot clk None) in
  online st' = false
  /\ history st' = history st
  /\ tds st' = tds st
  /\ temperature st' = temperature st
  /\ lastUpdated st' = lastUpdated st.
Proof. repeat split. Qed.

(** C7.  The error callback switches [online] to [false] and touches
    nothing else: the history and the current reading are as before. *)
Theorem subscription_error_goes_offline (host : Host) (st : State) :
  let st' := step host st Failure in
  online st' = false
  /\ history st' = history st
  /\ tds st' = tds st
  /\ temperature st' = temperature st
  /\ lastUpdated st' = lastUpdated st
  /\ st' = setOnline false st.
Proof. repeat split. Qed.

(** ** Before the first event *)

(** C9.  In the initial state both current values are absent and shown as
    the placeholder, both classifications carry the dash label, and
    [online] is [false]. *)
Theorem initial_state_is_unknown :
  tds initial = None
  /\ temperature initial = None
  /\ shown (tds initial) = Placeholder "--"
  /\ shown (temperature initial) = Placeholder "--"
  /\ label (tdsStatus (tds initial)) = "—"
  /\ label (tempStatus (temperature initial)) = "—"
  /\ online initial = false
  /\ history initial = [].
Proof. repeat split. Qed.

(** ** Normalisation of the raw record *)

(** C2, as the code has it.  The conversion of the raw fields is total: an
    absent field becomes 0, a number is kept as it is, and a string goes
    through [Number], which gives [NaN] for a string that is not a numeric
    literal.  Both fields are finite when each raw field is absent or a
    finite number.  The record [{tds: "abc", temperature: undefined}] gives
    [tds = NaN] and [temperature = 0]. *)
Theorem normalization_of_fields (host : Host) (clk : Clock) (value : Raw.Value)
  (st : State) :
  let st' := onSnapshot host clk (Some value) st in
  tds st' = Some (tdsVal value)
  /\ temperature st' = Some (tempVal value)
  /\ tdsVal value
     = match Raw.tds value with
       | None => of_Z 0
       | Some (Num x) => x
       | Some (Str s) => StringToNumber.StringToNumber s
       end
  /\ tempVal value
     = match Raw.temperature value with
       | None => of_Z 0
       | Some (Num x) => x
       | Some (Str s) => StringToNumber.StringToNumber s
       end
  /\ (Raw.tds value = None -> isFinite (tdsVal value) = true)
  /\ (forall x : number,
        Raw.tds value = Some (Num x) -> isFinite x = true ->
        isFinite (tdsVal value) = true)
  /\ (Raw.temperature value = None -> isFinite (tempVal value) = true)
  /\ (forall x : number,
        Raw.temperature value = Some (Num x) -> isFinite x = true ->
        isFinite (tempVal value) = true)
  /\ tdsVal Scenario.malformed = NaN
  /\ tempVal Scenario.malformed = of_Z 0.
Proof.
  intros st'. unfold tdsVal, tempVal.
  split; [reflexivity |]. split; [reflexivity |].
  split. { destruct (Raw.tds value) as [[x | s] |]; reflexivity. }
  split. { destruct (Raw.temperature value) as [[x | s] |]; reflexivity. }
  split. { intros H. rewrite H. reflexivity. }
  split. { intros x H Hfin. rewrite H. exact Hfin. }
  split. { intros H. rewrite H. reflexivity. }
  split. { intros x H Hfin. rewrite H. exact Hfin. }
  split; reflexivity.
Qed.

Lemma normalization_of_fields_witness :
  isFinite (tdsVal Scenario.v0) = true
  /\ isFinite (tempVal Scenario.malformed) = true.
Proof.
  split.
  - exact (proj1 (proj2 (proj2 (proj2 (proj2 (proj2
             (normalization_of_fields Scenario.utc (Scenario.at_ms 0)
                Scenario.v0 initial))))))
             (of_Z 300) eq_refl eq_refl).
  - exact (proj1 (proj2 (proj2 (proj2 (proj2 (proj2 (proj2
             (normalization_of_fields Scenario.utc (Scenario.at_ms 0)
                Scenario.malformed initial)))))))
             eq_refl).
Defined.

(** C2 fails as stated: for [{tds: "abc", temperature: undefined}] the
    normalised [tds] is [NaN], which is neither 0 nor finite, and the point
    that carries it enters the history. *)
Lemma malformed_tds_is_not_zero :
  JS.eqb (tdsVal Scenario.malformed) (of_Z 0) = false
  /\ isFinite (tdsVal Scenario.malformed) = false
  /\ tds (onSnapshot Scenario.utc (Scenario.at_ms 0) (Some Scenario.malformed) initial)
     = Some NaN
  /\ map Point.tds
       (history
          (onSnapshot Scenario.utc (Scenario.at_ms 0) (Some Scenario.malformed) initial))
     = [NaN].
Proof. repeat split. Qed.

(** C5, as the code has it.  The timestamp of the reading, stored in
    [lastUpdated] and in the appended point, is [new Date(value.timestamp)]
    whenever the string is present and not empty: the parsed instant when
    the string is in the standard format, an invalid date (time value
    [NaN]) when neither the standard format nor the engine recognises it.
    It is the clock reading of the callback when the field is absent or is
    the empty string. *)
Theorem timestamp_of_reading (host : Host) (clk : Clock) (value : Raw.Value)
  (st : State) :
  let st' := onSnapshot host clk (Some value) st in
  lastUpdated st' = Some (ts host clk value)
  /\ Point.time (newPoint host clk value) = ts host clk value
  /\ (forall s : string,
        Raw.timestamp value = Some s -> s <> "" ->
        ts host clk value = of_string host s)
  /\ (forall (s : string) (t : Z),
        Raw.timestamp value = Some s -> s <> "" ->
        parse_format (LocalTZA host) (list_ascii_of_string s) = Some t ->
        getTime (ts host clk value) = TimeClip t)
  /\ (forall s : string,
        Raw.timestamp value = Some s -> s <> "" ->
        parse_format (LocalTZA host) (list_ascii_of_string s) = None ->
        legacyParse host s = None ->
        getTime (ts host clk value) = NaN)
  /\ (Raw.timestamp value = None \/ Raw.timestamp value = Some "" ->
      getTime (ts host clk value) = newDate clk).
Proof.
  intros st'.
  split; [reflexivity |]. split; [reflexivity |].
  assert (Hpresent : forall s : string,
             Raw.timestamp value = Some s -> s <> "" ->
             ts host clk value = of_string host s).
  { intros s Hs Hne. unfold ts, truthy. rewrite Hs.
    destruct s as [| c s]; [contradiction Hne; reflexivity | reflexivity]. }
  split; [exact Hpresent |].
  split.
  { intros s t Hs Hne Hp. rewrite (Hpresent s Hs Hne).
    simpl. unfold parse. rewrite Hp. reflexivity. }
  split.
  { intros s Hs Hne Hp Hl. rewrite (Hpresent s Hs Hne).
    simpl. unfold parse. rewrite Hp, Hl. reflexivity. }
  unfold ts, truthy. intros [H | H]; rewrite H; reflexivity.
Qed.

Lemma timestamp_of_reading_witness :
  getTime (ts Scenario.utc (Scenario.at_ms 5) Scenario.v0) = of_Z Scenario.T0
  /\ getTime (ts Scenario.utc (Scenario.at_ms 5) Scenario.bad_timestamp) = NaN
  /\ getTime (ts Scenario.utc (Scenario.at_ms 5) Scenario.malformed)
     = newDate (Scenario.at_ms 5).
Proof.
  split; [| split].
  - refine (proj1 (proj2 (proj2 (proj2
             (timestamp_of_reading Scenario.utc (Scenario.at_ms 5)
                Scenario.v0 initial))))
             "2024-01-01T00:00:00Z" Scenario.T0 eq_refl _ eq_refl).
    discriminate.
  - refine (proj1 (proj2 (proj2 (proj2 (proj2
             (timestamp_of_reading Scenario.utc (Scenario.at_ms 5)
                Scenario.bad_timestamp initial)))))
             "pending" eq_refl _ eq_refl eq_refl).
    discriminate.
  - exact (proj2 (proj2 (proj2 (proj2 (proj2
             (timestamp_of_reading Scenario.utc (Scenario.at_ms 5)
                Scenario.malformed initial)))))
             (or_introl eq_refl)).
Defined.

(** C5 fails as stated: a timestamp that is present but does not parse
    gives an invalid date, not the time of normalisation. *)
Lemma unparseable_timestamp_is_invalid_date :
  lastUpdated
    (onSnapshot Scenario.utc (Scenario.at_ms 5) (Some Scenario.bad_timestamp) initial)
  = Some (mkDate NaN)
  /\ mkDate NaN <> mkDate (newDate (Scenario.at_ms 5))
  /\ JS.eqb (getTime (ts Scenario.utc (Scenario.at_ms 5) Scenario.bad_timestamp))
       (newDate (Scenario.at_ms 5)) = false.
Proof.
  split; [reflexivity |]. split; [| reflexivity].
  intros H. discriminate H.
Qed.

(** ** Order of arrival *)

Lemma Subseq_app_inv {A : Type} (l l1 l2 : list A) :
  Subseq l (l1 ++ l2) ->
  exists k1 k2 : list A, l = k1 ++ k2 /\ Subseq k1 l1 /\ Subseq k2 l2.
Proof.
  revert l. induction l1 as [| a l1 IH]; simpl; intros l H.
  - exists [], l. repeat split; [constructor | exact H].
  - inversion H as [| x k l' Hk | x k l' Hk]; subst.
    + destruct (IH _ Hk) as (k1 & k2 & -> & H1 & H2).
      exists k1, k2. repeat split; [apply Subseq_skip; exact H1 | exact H2].
    + destruct (IH _ Hk) as (k1 & k2 & -> & H1 & H2).
      exists (a :: k1), k2.
      repeat split; [apply Subseq_cons; exact H1 | exact H2].
Qed.

(** One event: the history afterwards is a subsequence of the history
    before, followed by a subsequence of what the event appends. *)
Lemma history_step (host : Host) (st : State) (ev : FeedEvent) :
  exists kept added : list HistoryPoint,
    history (step host st ev) = kept ++ added
    /\ Subseq kept (history st)
    /\ Subseq added (appended host [ev]).
Proof.
  destruct ev as [clk [value |] |]; simpl.
  - exists (filter (keep (DateNow clk)) (history st)),
      (if keep (DateNow clk) (newPoint host clk value)
       then [newPoint host clk value] else []).
    split; [apply updateHistory_split |].
    split; [apply Subseq_filter |].
    destruct (keep (DateNow clk) (newPoint host clk value)).
    + apply Subseq_refl.
    + apply Subseq_nil_l.
  - exists (history st), []. rewrite app_nil_r.
    repeat split; [apply Subseq_refl | constructor].
  - exists (history st), []. rewrite app_nil_r.
    repeat split; [apply Subseq_refl | constructor].
Qed.

Lemma appended_cons (host : Host) (ev : FeedEvent) (evs : list FeedEvent) :
  appended host (ev :: evs) = appended host [ev] ++ appended host evs.
Proof. destruct ev as [clk [value |] |]; reflexivity. Qed.

Lemma history_run (host : Host) (evs : list FeedEvent) (st : State) :
  exists kept added : list HistoryPoint,
    history (run host st evs) = kept ++ added
    /\ Subseq kept (history st)
    /\ Subseq added (appended host evs).
Proof.
  revert st. induction evs as [| ev evs IH]; intros st.
  - exists (history st), []. simpl. rewrite app_nil_r.
    repeat split; [apply Subseq_refl | constructor].
  - change (run host st (ev :: evs)) with (run host (step host st ev) evs).
    destruct (IH (step host st ev)) as (kept & added & Heq & Hkept & Hadded).
    destruct (history_step host st ev) as (k0 & a0 & Heq0 & Hk0 & Ha0).
    rewrite Heq0 in Hkept.
    destruct (Subseq_app_inv _ _ _ Hkept) as (k1 & k2 & -> & Hk1 & Hk2).
    exists k1, (k2 ++ added).
    split; [rewrite Heq, app_assoc; reflexivity |].
    split; [exact (Subseq_trans _ _ _ Hk1 Hk0) |].
    rewrite appended_cons. apply Subseq_app; [| exact Hadded].
    exact (Subseq_trans _ _ _ Hk2 Ha0).
Qed.

(** C8, as the code has it.  An append never reorders: the history after
    the callback is a subsequence of the history before it, followed by the
    new point when that point is itself within the window (it is dropped
    in the same step otherwise).  Over any sequence of events the history
    is a subsequence of the earlier history followed by a subsequence of
    the points appended since, so a point that is no longer in the history
    is in no later history unless it is appended anew. *)
Theorem append_keeps_arrival_order (host : Host) (st : State) :
  (forall (clk : Clock) (value : Raw.Value),
     let p := newPoint host clk value in
     exists kept : list HistoryPoint,
       Subseq kept (history st)
       /\ history (onSnapshot host clk (Some value) st)
          = kept ++ (if keep (DateNow clk) p then [p] else []))
  /\ (forall evs : list FeedEvent,
        exists kept added : list HistoryPoint,
          history (run host st evs) = kept ++ added
          /\ Subseq kept (history st)
          /\ Subseq added (appended host evs))
  /\ (forall (evs : list FeedEvent) (q : HistoryPoint),
        ~ In q (history st) -> ~ In q (appended host evs) ->
        ~ In q (history (run host st evs))).
Proof.
  split; [| split].
  - intros clk value p.
    exists (filter (keep (DateNow clk)) (history st)).
    split; [apply Subseq_filter |].
    rewrite history_onSnapshot. apply updateHistory_split.
  - intros evs. apply history_run.
  - intros evs q Hout Hnew Hin.
    destruct (history_run host evs st) as (kept & added & Heq & Hkept & Hadded).
    rewrite Heq in Hin. apply in_app_or in Hin. destruct Hin as [Hin | Hin].
    + apply Hout. exact (Subseq_In _ _ _ Hkept Hin).
    + apply Hnew. exact (Subseq_In _ _ _ Hadded Hin).
Qed.

(** The reading of [T0] is evicted by the reading of [T0 + 61 s] and stays
    out through the later events, none of which appends it. *)
Lemma append_keeps_arrival_order_witness :
  ~ In Scenario.p0
      (history
         (run Scenario.utc
            (onSnapshot Scenario.utc (Scenario.at_ms 61000) (Some Scenario.v61)
               Scenario.two_readings)
            [Snapshot (Scenario.at_ms 62000) None; Failure;
             Snapshot (Scenario.at_ms 63000) (Some Scenario.v60)])).
Proof.
  refine (proj2 (proj2
            (append_keeps_arrival_order Scenario.utc
               (onSnapshot Scenario.utc (Scenario.at_ms 61000) (Some Scenario.v61)
                  Scenario.two_readings)))
            _ Scenario.p0 _ _).
  - simpl. intros [H | [H | []]]; discriminate H.
  - simpl. intros [H | []]; discriminate H.
Defined.

(** C8 fails as stated: the new reading is not always at the end.  On the
    first event, a record stamped [T0] and appended at [T0 + 61 s] leaves
    the history empty. *)
Lemma stale_reading_is_not_at_the_end :
  let st' :=
    onSnapshot Scenario.utc (Scenario.at_ms 61000) (Some Scenario.v0) initial in
  history st' = []
  /\ ~ (exists kept : list HistoryPoint,
          Subseq kept (history initial)
          /\ history st'
             = kept ++ [newPoint Scenario.utc (Scenario.at_ms 61000) Scenario.v0]).
Proof.
  split; [reflexivity |].
  intros (kept & _ & H). change (history _) with (@nil HistoryPoint) in H.
  destruct kept; discriminate H.
Qed.

(** ** A reading that is stale on arrival *)

(** C10.  When the record carries a timestamp that is more than 60000 ms
    before [Date.now()] of the history updater, the new point is dropped in
    the same step: the history is the previous one, filtered, and does not
    contain the new point, while [tds], [temperature] are those of the
    record and [online] is [true].  From an empty history the result is an
    empty history with [online] true. *)
Theorem stale_reading_is_dropped (host : Host) (clk : Clock) (value : Raw.Value)
  (st : State) (s : string) :
  truthy (Raw.timestamp value) = Some s ->
  (of_Z 60000 <? DateNow clk - parse host s)%num = true ->
  let st' := onSnapshot host clk (Some value) st in
  ~ In (newPoint host clk value) (history st')
  /\ history st' = filter (keep (DateNow clk)) (history st)
  /\ tds st' = Some (tdsVal value)
  /\ temperature st' = Some (tempVal value)
  /\ online st' = true
  /\ (history st = [] ->
      history st' = [] /\ online st' = true
      /\ shown (tds st') = Fixed1 (tdsVal value)).
Proof.
  intros Hs Hold st'.
  assert (Hdrop : keep (DateNow clk) (newPoint host clk value) = false).
  { unfold keep, newPoint, ts. simpl. rewrite Hs. simpl.
    apply ltb_not_leb. exact Hold. }
  assert (Hhist : history st' = filter (keep (DateNow clk)) (history st)).
  { unfold st'. rewrite history_onSnapshot, updateHistory_split, Hdrop.
    apply app_nil_r. }
  split.
  { rewrite Hhist. intros Hin. apply filter_In in Hin.
    destruct Hin as [_ Hkeep]. rewrite Hdrop in Hkeep. discriminate. }
  split; [exact Hhist |].
  split; [reflexivity |]. split; [reflexivity |]. split; [reflexivity |].
  intros Hempty. rewrite Hhist, Hempty.
  split; [reflexivity |]. split; reflexivity.
Qed.

(** The first event of a session delivers a record stamped 61 s ago: the
    cards show it, the dashboard is online, the history is empty. *)
Lemma stale_reading_is_dropped_witness :
  let st' :=
    onSnapshot Scenario.utc (Scenario.at_ms 61000) (Some Scenario.v0) initial in
  history st' = [] /\ online st' = true
  /\ shown (tds st') = Fixed1 (of_Z 300).
Proof.
  refine (proj2 (proj2 (proj2 (proj2 (proj2
            (stale_reading_is_dropped Scenario.utc (Scenario.at_ms 61000) Scenario.v0
               initial "2024-01-01T00:00:00Z" eq_refl _)))))
            eq_refl).
  reflexivity.
Defined.

(** ** Runs of the feed *)

Lemma run_snoc (host : Host) (st : State) (evs : list FeedEvent)
  (ev : FeedEvent) :
  run host st (evs ++ [ev]) = step host (run host st evs) ev.
Proof. unfold run. rewrite fold_left_app. reflexivity. Qed.

Lemma lastReading_snoc (evs : list FeedEvent) (ev : FeedEvent) :
  lastReading (evs ++ [ev])
  = match ev with
    | Snapshot clk (Some value) => Some (clk, value)
    | _ => lastReading evs
    end.
Proof. unfold lastReading. rewrite fold_left_app. reflexivity. Qed.

Lemma step_offline (host : Host) (st : State) (ev : FeedEvent) :
  offline ev = true -> step host st ev = setOnline false st.
Proof.
  destruct ev as [clk [value |] |]; simpl; intros H;
    [discriminate H | reflexivity | reflexivity].
Qed.

(** The cells after a run, read off the latest successful snapshot. *)
Lemma cells_after_run (host : Host) (st : State) (evs : list FeedEvent) :
  match lastReading evs with
  | Some (clk, value) =>
      tds (run host st evs) = Some (tdsVal value)
      /\ temperature (run host st evs) = Some (tempVal value)
      /\ lastUpdated (run host st evs) = Some (ts host clk value)
  | None =>
      tds (run host st evs) = tds st
      /\ temperature (run host st evs) = temperature st
      /\ lastUpdated (run host st evs) = lastUpdated st
      /\ history (run host st evs) = history st
  end.
Proof.
  induction evs as [| ev evs IH] using rev_ind.
  - simpl. repeat split.
  - rewrite lastReading_snoc, run_snoc.
    destruct ev as [clk [value |] |].
    + repeat split.
    + simpl. exact IH.
    + simpl. exact IH.
Qed.

(** Every point of the history passed the filter of the latest successful
    snapshot; without one the history is the one the run started from. *)
Lemma history_kept_by_last (host : Host) (st : State)
  (evs : list FeedEvent) :
  match lastReading evs with
  | Some (clk, _) =>
      Forall (fun p => keep (DateNow clk) p = true) (history (run host st evs))
  | None => history (run host st evs) = history st
  end.
Proof.
  induction evs as [| ev evs IH] using rev_ind.
  - reflexivity.
  - rewrite lastReading_snoc, run_snoc.
    destruct ev as [clk [value |] |].
    + simpl. unfold updateHistory. apply Forall_forall.
      intros p Hin. apply filter_In in Hin. exact (proj2 Hin).
    + simpl. exact IH.
    + simpl. exact IH.
Qed.

Lemma keep_valid_date (now : number) (p : HistoryPoint) :
  keep now p = true -> getTime (Point.time p) <> NaN.
Proof.
  unfold keep. intros Hkeep Hnan. rewrite Hnan in Hkeep.
  destruct now; discriminate Hkeep.
Qed.

(** With points in the history, a reading has been received. *)
Lemma history_needs_reading (host : Host) (evs : list FeedEvent) :
  history (run host initial evs) <> [] -> lastReading evs <> None.
Proof.
  intros Hne Hnone.
  pose proof (cells_after_run host initial evs) as H.
  rewrite Hnone in H. apply Hne. exact (proj2 (proj2 (proj2 H))).
Qed.

Lemma online_after_snoc (host : Host) (st : State) (evs : list FeedEvent)
  (ev : FeedEvent) :
  online (run host st (evs ++ [ev])) = negb (offline ev).
Proof.
  rewrite run_snoc. destruct ev as [clk [value |] |]; reflexivity.
Qed.

Lemma Subseq_length {A : Type} (l1 l2 : list A) :
  Subseq l1 l2 -> (List.length l1 <= List.length l2)%nat.
Proof. induction 1; simpl; lia. Qed.

Lemma online_needs_reading (host : Host) (evs : list FeedEvent) :
  online (run host initial evs) = true -> lastReading evs <> None.
Proof.
  destruct evs as [| ev evs _] using rev_ind.
  - simpl. discriminate.
  - rewrite online_after_snoc, lastReading_snoc.
    destruct ev as [clk [value |] |]; simpl; intros H;
      [discriminate | discriminate H | discriminate H].
Qed.

(** X1.  After any sequence of events the cards show the latest successful
    reading: [tds], [temperature] and [lastUpdated] are those of the last
    snapshot with a value, whatever offline events came after it, and the
    header shows the time of that reading; with no such snapshot the three
    cells and the history are what they were. *)
Theorem cards_show_latest_reading (host : Host)
  (toLocaleTimeString : Date -> string) (st : State)
  (evs : list FeedEvent) :
  let st' := run host st evs in
  match lastReading evs with
  | Some (clk, value) =>
      tds st' = Some (tdsVal value)
      /\ temperature st' = Some (tempVal value)
      /\ lastUpdated st' = Some (ts host clk value)
      /\ formattedTime toLocaleTimeString (lastUpdated st')
         = toLocaleTimeString (ts host clk value)
  | None =>
      tds st' = tds st
      /\ temperature st' = temperature st
      /\ lastUpdated st' = lastUpdated st
      /\ history st' = history st
  end.
Proof.
  intros st'. pose proof (cells_after_run host st evs) as H.
  fold st' in H.
  destruct (lastReading evs) as [[clk value] |]; [| exact H].
  destruct H as (H1 & H2 & H3).
  repeat split; try assumption. rewrite H3. reflexivity.
Qed.

(** X2.  In every state reached from the initial one, the three cells of
    the reading are set together: each is [null] exactly when no snapshot
    with a value has arrived.  The dashboard is never online, and the
    history never holds a point, before the first reading. *)
Theorem reading_cells_are_set_together (host : Host)
  (evs : list FeedEvent) :
  let st := run host initial evs in
  (tds st = None <-> lastReading evs = None)
  /\ (temperature st = None <-> lastReading evs = None)
  /\ (lastUpdated st = None <-> lastReading evs = None)
  /\ (online st = true -> tds st <> None /\ temperature st <> None)
  /\ (history st <> [] -> tds st <> None /\ temperature st <> None).
Proof.
  intros st.
  pose proof (cells_after_run host initial evs) as H. fold st in H.
  pose proof (online_needs_reading host evs) as Hon. fold st in Hon.
  pose proof (history_needs_reading host evs) as Hhist. fold st in Hhist.
  destruct (lastReading evs) as [[clk value] |].
  - destruct H as (H1 & H2 & H3). rewrite H1, H2, H3.
    repeat split; intros; discriminate.
  - destruct H as (H1 & H2 & H3 & H4). rewrite H1, H2, H3.
    split; [split; reflexivity |].
    split; [split; reflexivity |].
    split; [split; reflexivity |].
    split.
    + intros Hst. exfalso. apply (Hon Hst). reflexivity.
    + intros Hst. exfalso. apply (Hhist Hst). reflexivity.
Qed.

Lemma reading_cells_are_set_together_witness :
  tds Scenario.two_readings <> None
  /\ temperature Scenario.two_readings <> None.
Proof.
  refine (proj2 (proj2 (proj2 (proj2
            (reading_cells_are_set_together Scenario.utc
               [Snapshot (Scenario.at_ms 0) (Some Scenario.v0);
                Snapshot (Scenario.at_ms 30000) (Some Scenario.v30)]))))
            _).
  discriminate.
Defined.

(** X3.  Connectivity is decided by the last event alone: after a
    non-empty sequence of events the dashboard is online exactly when the
    last event is a snapshot with a value, and the labels say so. *)
Theorem online_follows_last_event (host : Host) (st : State)
  (evs : list FeedEvent) (ev : FeedEvent) :
  let st' := run host st (evs ++ [ev]) in
  online st' = negb (offline ev)
  /\ (onlineLabel (online st') = "Online" <-> offline ev = false)
  /\ (systemStatus (online st') = "Operational" <-> offline ev = false).
Proof.
  intros st'. unfold st'. rewrite online_after_snoc.
  split; [reflexivity |].
  destruct (offline ev); simpl; repeat split; intros H;
    try reflexivity; discriminate H.
Qed.

(** X4.  In every state reached from the initial one, each point of the
    history was within the window at the [Date.now()] of the latest
    successful snapshot; with no such snapshot the history is empty. *)
Theorem history_within_latest_window (host : Host) (evs : list FeedEvent) :
  match lastReading evs with
  | Some (clk, _) =>
      forall p : HistoryPoint,
        In p (history (run host initial evs)) ->
        (DateNow clk - getTime (Point.time p) <=? of_Z 60000)%num = true
  | None => history (run host initial evs) = []
  end.
Proof.
  pose proof (history_kept_by_last host initial evs) as H.
  destruct (lastReading evs) as [[clk value] |]; [| exact H].
  intros p Hin. rewrite Forall_forall in H. exact (H p Hin).
Qed.

Lemma history_within_latest_window_witness :
  (DateNow (Scenario.at_ms 30000) - getTime (Point.time Scenario.p0)
   <=? of_Z 60000)%num = true.
Proof.
  refine (history_within_latest_window Scenario.utc
            [Snapshot (Scenario.at_ms 0) (Some Scenario.v0);
             Snapshot (Scenario.at_ms 30000) (Some Scenario.v30);
             Failure]
            Scenario.p0 _).
  left. reflexivity.
Defined.

(** X5.  No point of the history carries an invalid date: a reading whose
    timestamp does not parse never enters the chart, in any state reached
    from the initial one. *)
Theorem no_invalid_date_in_history (host : Host) (evs : list FeedEvent)
  (p : HistoryPoint) :
  In p (history (run host initial evs)) ->
  getTime (Point.time p) <> NaN.
Proof.
  intros Hin.
  pose proof (history_kept_by_last host initial evs) as H.
  destruct (lastReading evs) as [[clk value] |].
  - rewrite Forall_forall in H. exact (keep_valid_date _ _ (H p Hin)).
  - rewrite H in Hin. destruct Hin.
Qed.

Lemma no_invalid_date_in_history_witness :
  getTime (Point.time Scenario.p30) <> NaN.
Proof.
  refine (no_invalid_date_in_history Scenario.utc
            [Snapshot (Scenario.at_ms 0) (Some Scenario.v0);
             Snapshot (Scenario.at_ms 10000) (Some Scenario.bad_timestamp);
             Snapshot (Scenario.at_ms 30000) (Some Scenario.v30)]
            Scenario.p30 _).
  right. left. reflexivity.
Defined.

(** ** The chart and the cards *)

(** X6.  When the new reading is within the window, the chart ends with
    it: the last label is the time shown in the header, and the last point
    of each dataset is the value shown on its card; before it come the
    points of the previous history that are still within the window, in
    their order. *)
Theorem latest_chart_point_is_the_card (host : Host)
  (toLocaleTimeString : Date -> string) (clk : Clock) (value : Raw.Value)
  (st : State) :
  keep (DateNow clk) (newPoint host clk value) = true ->
  let st' := onSnapshot host clk (Some value) st in
  let kept := filter (keep (DateNow clk)) (history st) in
  let chart := chartData toLocaleTimeString (history st') in
  Chart.labels chart
  = map (fun p => toLocaleTimeString (Point.time p)) kept
    ++ [formattedTime toLocaleTimeString (lastUpdated st')]
  /\ map Chart.data (Chart.datasets chart)
     = [map Point.tds kept ++ [tdsVal value];
        map Point.temperature kept ++ [tempVal value]]
  /\ tds st' = Some (tdsVal value)
  /\ temperature st' = Some (tempVal value).
Proof.
  intros Hkeep st' kept chart.
  assert (Hhist : history st' = kept ++ [newPoint host clk value]).
  { unfold st'. rewrite history_onSnapshot, updateHistory_split, Hkeep.
    reflexivity. }
  unfold chart. rewrite Hhist. unfold chartData. simpl.
  rewrite !map_app. repeat split.
Qed.

Lemma latest_chart_point_is_the_card_witness :
  map Chart.data
    (Chart.datasets
       (chartData (fun _ => "")
          (history
             (onSnapshot Scenario.utc (Scenario.at_ms 61000)
                (Some Scenario.v61) Scenario.two_readings))))
  = [[of_Z 310; of_Z 650]; [of_Z 23; of_Z 35]].
Proof.
  exact (proj1 (proj2
           (latest_chart_point_is_the_card Scenario.utc (fun _ => "")
              (Scenario.at_ms 61000) Scenario.v61 Scenario.two_readings
              eq_refl))).
Defined.

Lemma label_tempStatus_cases (x : number) :
  label (tempStatus (Some x)) = "Safe"
  \/ label (tempStatus (Some x)) = "Out of range".
Proof.
  rewrite label_tempStatus.
  destruct ((x >=? TEMP_SAFE_MIN)%num && (x <=? TEMP_SAFE_MAX)%num);
    [left | right]; reflexivity.
Qed.

(** X7.  In every state reached from the initial one, the two trend lines
    read "Waiting for data" exactly when the chart panel shows its
    placeholder, that is while the history holds fewer than two points. *)
Theorem trend_waits_with_the_chart (host : Host)
  (toLocaleTimeString : Date -> string) (evs : list FeedEvent) :
  let st := run host initial evs in
  let waiting := Waiting "Waiting for enough data points…" in
  (tdsTrend st = "Waiting for data" <->
   chartPanel toLocaleTimeString st = waiting)
  /\ (tempTrend st = "Waiting for data" <->
      chartPanel toLocaleTimeString st = waiting)
  /\ (chartPanel toLocaleTimeString st = waiting <->
      (List.length (history st) < 2)%nat).
Proof.
  intros st waiting.
  pose proof (cells_after_run host initial evs) as Hcells. fold st in Hcells.
  pose proof (history_needs_reading host evs) as Hneed. fold st in Hneed.
  unfold tdsTrend, tempTrend, chartPanel, waiting.
  destruct (history st) as [| p1 [| p2 l]] eqn:Hh; simpl.
  - repeat split; intros; try reflexivity; lia.
  - repeat split; intros; try reflexivity; lia.
  - assert (Hsome : lastReading evs <> None).
    { apply Hneed. discriminate. }
    destruct (lastReading evs) as [[clk value] |]; [| contradiction Hsome;
                                                      reflexivity].
    destruct Hcells as (H1 & H2 & _). rewrite H1, H2.
    split; [| split].
    + rewrite label_tdsStatus.
      destruct (tdsVal value <=? TDS_SAFE_MAX)%num; simpl;
        split; intros H; discriminate H.
    + simpl notNull. cbv iota.
      destruct (label_tempStatus_cases (tempVal value)) as [-> | ->];
        split; intros H; discriminate H.
    + split; intros H; [discriminate H | lia].
Qed.

(** X8.  The colour of the TDS progress bar agrees with the status badge:
    it is green exactly when the badge reads "Safe", also before the first
    reading; and a trend line "Stable" comes with a green bar, "Needs
    attention" with a red one. *)
Theorem bar_colour_agrees_with_badge :
  (forall v : option number,
     tdsBarColor v = "bg-emerald-400" <-> label (tdsStatus v) = "Safe")
  /\ (forall st : State,
        tdsTrend st = "Stable" -> tdsBarColor (tds st) = "bg-emerald-400")
  /\ (forall st : State,
        tdsTrend st = "Needs attention" ->
        tdsBarColor (tds st) = "bg-red-400").
Proof.
  split; [| split].
  - intros [x |]; simpl.
    + destruct (x <=? TDS_SAFE_MAX)%num; simpl; split; intros H;
        try reflexivity; discriminate H.
    + split; intros H; discriminate H.
  - intros st. unfold tdsTrend.
    destruct (Nat.ltb 1 (List.length (history st)) && notNull (tds st));
      [| discriminate].
    destruct (tds st) as [x |]; simpl.
    + destruct (x <=? TDS_SAFE_MAX)%num; simpl; intros H;
        [reflexivity | discriminate H].
    + discriminate.
  - intros st. unfold tdsTrend.
    destruct (Nat.ltb 1 (List.length (history st)) && notNull (tds st));
      [| discriminate].
    destruct (tds st) as [x |]; simpl.
    + destruct (x <=? TDS_SAFE_MAX)%num; simpl; intros H;
        [discriminate H | reflexivity].
    + reflexivity.
Qed.

Lemma bar_colour_agrees_with_badge_witness :
  tdsBarColor (tds Scenario.two_readings) = "bg-emerald-400".
Proof.
  exact (proj1 (proj2 bar_colour_agrees_with_badge) Scenario.two_readings
           eq_refl).
Defined.

(** ** The progress bars *)






(** ** Offline events and the size of the history *)

(** X10.  Offline events compose to one: after any non-empty sequence of
    [null] snapshots and subscription errors the state is the one before
    it with [online] set to [false]; the cards and the history keep what
    they held, however long the feed stays silent. *)
Theorem offline_events_compose (host : Host) (st : State)
  (evs : list FeedEvent) :
  forallb offline evs = true -> evs <> [] ->
  run host st evs = setOnline false st.
Proof.
  revert st. induction evs as [| ev evs IH]; intros st Hoff Hne.
  - contradiction Hne. reflexivity.
  - simpl in Hoff. apply andb_prop in Hoff. destruct Hoff as [Hev Hevs].
    change (run host st (ev :: evs)) with (run host (step host st ev) evs).
    rewrite (step_offline host st ev Hev).
    destruct evs as [| ev' evs'].
    + reflexivity.
    + rewrite (IH (setOnline false st) Hevs); [reflexivity | discriminate].
Qed.

Lemma offline_events_compose_witness :
  run Scenario.utc Scenario.two_readings
    [Failure; Snapshot (Scenario.at_ms 3600000) None; Failure]
  = setOnline false Scenario.two_readings.
Proof.
  refine (offline_events_compose Scenario.utc Scenario.two_readings
            [Failure; Snapshot (Scenario.at_ms 3600000) None; Failure]
            eq_refl _).
  discriminate.
Defined.

(** X11.  The history grows by at most one point per snapshot with a
    value and never on an offline event, so the chart cannot appear before
    two such snapshots have arrived. *)
Theorem chart_needs_two_readings (host : Host)
  (toLocaleTimeString : Date -> string) (evs : list FeedEvent) :
  (forall st : State,
     (List.length (history (run host st evs))
      <= List.length (history st) + List.length (appended host evs))%nat)
  /\ ((List.length (appended host evs) < 2)%nat ->
      chartPanel toLocaleTimeString (run host initial evs)
      = Waiting "Waiting for enough data points…").
Proof.
  assert (Hlen : forall st : State,
             (List.length (history (run host st evs))
              <= List.length (history st)
                 + List.length (appended host evs))%nat).
  { intros st.
    destruct (history_run host evs st)
      as (kept & added & Heq & Hkept & Hadded).
    rewrite Heq, length_app.
    apply Subseq_length in Hkept. apply Subseq_length in Hadded. lia. }
  split; [exact Hlen |].
  intros Hfew. unfold chartPanel.
  specialize (Hlen initial). simpl in Hlen.
  destruct (Nat.ltb_spec (List.length (history (run host initial evs))) 2)
    as [_ | Hge]; [reflexivity | lia].
Qed.

Lemma chart_needs_two_readings_witness :
  chartPanel (fun _ => "")
    (run Scenario.utc initial
       [Failure; Snapshot (Scenario.at_ms 0) (Some Scenario.v0);
        Snapshot (Scenario.at_ms 1000) None])
  = Waiting "Waiting for enough data points…".
Proof.
  refine (proj2
            (chart_needs_two_readings Scenario.utc (fun _ => "")
               [Failure; Snapshot (Scenario.at_ms 0) (Some Scenario.v0);
                Snapshot (Scenario.at_ms 1000) None])
            _).
  simpl. lia.
Defined.

(** ** Readings that are not well formed *)

(** X12.  A record whose timestamp gives an invalid date updates the cards
    and nothing else: [tds], [temperature] are those of the record,
    [lastUpdated] is the invalid date and [online] is [true], while the
    history only loses its expired points and does not receive the new
    one. *)
Theorem invalid_date_updates_cards_only (host : Host) (clk : Clock)
  (value : Raw.Value) (st : State) :
  getTime (ts host clk value) = NaN ->
  let st' := onSnapshot host clk (Some value) st in
  history st' = filter (keep (DateNow clk)) (history st)
  /\ ~ In (newPoint host clk value) (history st')
  /\ tds st' = Some (tdsVal value)
  /\ temperature st' = Some (tempVal value)
  /\ lastUpdated st' = Some (mkDate NaN)
  /\ online st' = true.
Proof.
  intros Hnan st'.
  assert (Hdrop : keep (DateNow clk) (newPoint host clk value) = false).
  { destruct (keep (DateNow clk) (newPoint host clk value)) eqn:E;
      [| reflexivity].
    contradiction (keep_valid_date _ _ E). }
  assert (Hhist : history st' = filter (keep (DateNow clk)) (history st)).
  { unfold st'. rewrite history_onSnapshot, updateHistory_split, Hdrop.
    apply app_nil_r. }
  split; [exact Hhist |].
  split.
  { rewrite Hhist. intros Hin. apply filter_In in Hin.
    rewrite Hdrop in Hin. destruct Hin as [_ Hin]. discriminate Hin. }
  split; [reflexivity |]. split; [reflexivity |].
  split; [| reflexivity].
  simpl. f_equal. destruct (ts host clk value) as [t]. simpl in Hnan.
  rewrite Hnan. reflexivity.
Qed.

Lemma invalid_date_updates_cards_only_witness :
  let st' :=
    onSnapshot Scenario.utc (Scenario.at_ms 31000)
      (Some Scenario.bad_timestamp) Scenario.two_readings in
  history st' = [Scenario.p0; Scenario.p30]
  /\ tds st' = Some (of_Z 300)
  /\ lastUpdated st' = Some (mkDate NaN).
Proof.
  pose proof (invalid_date_updates_cards_only Scenario.utc
                (Scenario.at_ms 31000) Scenario.bad_timestamp
                Scenario.two_readings eq_refl)
    as (H1 & _ & H3 & _ & H5 & _).
  split; [exact H1 |]. split; [exact H3 | exact H5].
Defined.

(** X13.  A [tds] or [temperature] that is not a number raises the alarm:
    when the field is a string that [Number] turns into [NaN], the badge
    reads "High" (or "Out of range"), the TDS bar is red and the bar
    widths are [NaN] percent. *)
Theorem non_numeric_reading_is_flagged (host : Host) (clk : Clock)
  (value : Raw.Value) (st : State) :
  let st' := onSnapshot host clk (Some value) st in
  (forall s : string,
     Raw.tds value = Some (Str s) ->
     StringToNumber.StringToNumber s = NaN ->
     label (tdsStatus (tds st')) = "High"
     /\ tdsBarColor (tds st') = "bg-red-400"
     /\ tdsBarWidth (tds st') = Percent NaN)
  /\ (forall s : string,
        Raw.temperature value = Some (Str s) ->
        StringToNumber.StringToNumber s = NaN ->
        label (tempStatus (temperature st')) = "Out of range"
        /\ tempBarWidth (temperature st') = Percent NaN).
Proof.
  intros st'. split.
  - intros s Hs Hnan.
    assert (H : tds st' = Some NaN).
    { unfold st'. simpl. unfold tdsVal. rewrite Hs. simpl.
      rewrite Hnan. reflexivity. }
    rewrite H. repeat split.
  - intros s Hs Hnan.
    assert (H : temperature st' = Some NaN).
    { unfold st'. simpl. unfold tempVal. rewrite Hs. simpl.
      rewrite Hnan. reflexivity. }
    rewrite H. repeat split.
Qed.

Lemma non_numeric_reading_is_flagged_witness :
  label
    (tdsStatus
       (tds
          (onSnapshot Scenario.utc (Scenario.at_ms 0)
             (Some Scenario.malformed) initial)))
  = "High".
Proof.
  exact (proj1
           (proj1
              (non_numeric_reading_is_flagged Scenario.utc (Scenario.at_ms 0)
                 Scenario.malformed initial)
              "abc" eq_refl eq_refl)).
Defined.
